(** * SSF/CAEP lab MCP server: a shallow embedding of [mcp-server/server.py]

    The server mediates two tool calls, [read_file_secure] and
    [list_files_secure].  A read of a path that matches a monitored
    pattern generates a CAEP event, which is printed and posted to the
    receiver.  The embedding keeps the Python control flow: exceptions,
    the [try]/[except] blocks, the mutation of [self.event_count] and the
    order of the observable effects (console lines, HTTP posts, file-system
    queries). *)

From Stdlib Require Import ZArith String Ascii List Bool Lia Permutation.
From Stdlib Require Import Decimal DecimalString DecimalPos DecimalZ.
From stdpp Require Import base strings gmap.
Import ListNotations.

Local Open Scope string_scope.
Local Open Scope Z_scope.

(* Concatenation of a literal with a string computes. *)
#[local] Arguments String.append !s1 s2 : simpl nomatch.

(** ** Python strings

    A [str] is modelled by a [string]; non-ASCII characters are kept as
    their UTF-8 bytes. *)

(** [str.lower()] on the ASCII letters; every other byte is kept. *)
Definition ascii_lower (c : ascii) : ascii :=
  let n := nat_of_ascii c in
  if ((65 <=? n) && (n <=? 90))%nat then ascii_of_nat (n + 32) else c.

Fixpoint lower (s : string) : string :=
  match s with
  | EmptyString => EmptyString
  | String c s' => String (ascii_lower c) (lower s')
  end.

(** [s.startswith(p)] *)
Definition startswith (s p : string) : bool := String.prefix p s.

(** [pat in s] on two strings: [pat] starts at some position of [s]. *)
Fixpoint str_in (pat s : string) : bool :=
  startswith s pat ||
  match s with
  | EmptyString => false
  | String _ s' => str_in pat s'
  end.

(** [sep.join(parts)] *)
Fixpoint join (sep : string) (parts : list string) : string :=
  match parts with
  | [] => ""
  | [p] => p
  | p :: rest => p ++ sep ++ join sep rest
  end.

(** [str(n)] for an [int]. *)
Definition str_of_int (n : Z) : string := NilZero.string_of_int (Z.to_int n).

(** [os.path.basename(p)]: what follows the last slash. *)
Fixpoint basename_from (acc s : string) : string :=
  match s with
  | EmptyString => acc
  | String c s' =>
      if Ascii.eqb c "/" then basename_from "" s'
      else basename_from (acc ++ String c "") s'
  end.

Definition basename (p : string) : string := basename_from "" p.

(** [str(parent / name)] for a resolved [parent]: only a root ends in a
    slash. *)
Definition path_join (parent name : string) : string :=
  if str_in "/" (String.substring (String.length parent - 1) 1 parent)
  then parent ++ name
  else parent ++ "/" ++ name.

(** ** JSON values of the event body *)

Local Unset Elimination Schemes.
Inductive json : Type :=
| JString (s : string)
| JInt (n : Z)
| JBool (b : bool)
| JObject (fields : list (string * json)).
Local Set Elimination Schemes.

Fixpoint assoc_get (k : string) (fields : list (string * json)) : option json :=
  match fields with
  | [] => None
  | (k', v) :: rest => if String.eqb k k' then Some v else assoc_get k rest
  end.

Definition json_get (k : string) (j : json) : option json :=
  match j with
  | JObject fields => assoc_get k fields
  | _ => None
  end.

(** ** Outcomes, effects and the world around the server *)

(** A Python call returns a value or raises; [e] is [str(e)]. *)
Inductive outcome (A : Type) : Type :=
| Return (a : A)
| Raise (e : string).
Arguments Return {A} a.
Arguments Raise {A} e.

Inductive fs_op : Type := Resolve | Exists | IsFile | IsDir | ReadText | Iterdir.

(** What a run leaves behind, in the order it happens. *)
Inductive effect : Type :=
| Printed (line : string)
| Posted (url : string) (body : json) (headers : list (string * string)) (timeout : Z)
| FsCall (op : fs_op) (path : string).

(** The platform: [pathlib] answers, the wall clock and the receiver.
    Every file-system query may raise ([PermissionError], a symlink loop).
    The clock is read in microseconds since the epoch; the [n]-th reading
    and the [n]-th POST attempt have their own answer. *)
Record Env : Type := {
  fs_resolve : string -> outcome string;
  fs_exists : string -> outcome bool;
  fs_is_file : string -> outcome bool;
  fs_is_dir : string -> outcome bool;
  fs_read_text : string -> outcome string;
  fs_iterdir : string -> outcome (list string);
  clock : nat -> Z;
  isoformat : Z -> string;
  http_post : nat -> string -> json -> outcome Z
}.

(** [SecurityMCPServer]: the attributes set by [__init__]. *)
Record SecurityMCPServer : Type := {
  ssf_receiver_url : string;
  monitored_patterns : list string;
  event_count : Z
}.

Definition init : SecurityMCPServer := {|
  ssf_receiver_url := "http://localhost:8082/events";
  monitored_patterns := [".secret"; ".credentials"; "/secure/"; "api-key"; "password"];
  event_count := 0
|}.

Record State : Type := {
  self : SecurityMCPServer;
  trace : list effect;
  clock_reads : nat;
  post_attempts : nat
}.

Definition start (srv : SecurityMCPServer) : State :=
  {| self := srv; trace := []; clock_reads := 0; post_attempts := 0 |}.

(** ** The monad of handler code: state passing with exceptions *)

Definition M (A : Type) : Type := State -> outcome A * State.

Definition ret {A} (a : A) : M A := fun st => (Return a, st).

Definition raise {A} (e : string) : M A := fun st => (Raise e, st).

Definition bind {A B} (m : M A) (k : A -> M B) : M B :=
  fun st =>
    match m st with
    | (Return a, st') => k a st'
    | (Raise e, st') => (Raise e, st')
    end.

(** [try: body  except Exception as e: handler(e)] *)
Definition try_except {A} (body : M A) (handler : string -> M A) : M A :=
  fun st =>
    match body st with
    | (Return a, st') => (Return a, st')
    | (Raise e, st') => handler e st'
    end.

Declare Scope py_scope.
Delimit Scope py_scope with py.
Notation "x <- m ;; k" := (bind m (fun x => k))
  (at level 90, m at level 89, right associativity) : py_scope.
Notation "m ;;; k" := (bind m (fun _ => k))
  (at level 90, right associativity) : py_scope.
Local Open Scope py_scope.

Definition record (e : effect) (st : State) : State :=
  {| self := self st; trace := trace st ++ [e];
     clock_reads := clock_reads st; post_attempts := post_attempts st |}.

Definition get_self : M SecurityMCPServer := fun st => (Return (self st), st).

(** [print(line)] *)
Definition print (line : string) : M unit :=
  fun st => (Return tt, record (Printed line) st).

(** [time.time()], in microseconds. *)
Definition time_time (env : Env) : M Z :=
  fun st =>
    (Return (clock env (clock_reads st)),
     {| self := self st; trace := trace st;
        clock_reads := S (clock_reads st); post_attempts := post_attempts st |}).

(** [datetime.now().isoformat()] *)
Definition datetime_now_isoformat (env : Env) : M string :=
  (t <- time_time env ;; ret (isoformat env t)).

Definition fs_call {A} (op : fs_op) (answer : string -> outcome A) (p : string) : M A :=
  fun st => (answer p, record (FsCall op p) st).

Definition path_resolve (env : Env) := fs_call Resolve (fs_resolve env).
Definition path_exists (env : Env) := fs_call Exists (fs_exists env).
Definition path_is_file (env : Env) := fs_call IsFile (fs_is_file env).
Definition path_is_dir (env : Env) := fs_call IsDir (fs_is_dir env).
Definition path_read_text (env : Env) := fs_call ReadText (fs_read_text env).
Definition path_iterdir (env : Env) := fs_call Iterdir (fs_iterdir env).

(** [session.post(url, json=body, headers=..., timeout=ClientTimeout(total=2))]:
    the status of the response, or the exception of the attempt. *)
Definition session_post (env : Env) (url : string) (body : json) : M Z :=
  fun st =>
    (http_post env (post_attempts st) url body,
     {| self := self st;
        trace := trace st ++ [Posted url body [("Content-Type", "application/json")] 2];
        clock_reads := clock_reads st; post_attempts := S (post_attempts st) |}).

(** ** The server *)

Record TextContent : Type := { type : string; text : string }.

Definition text_content (t : string) : list TextContent :=
  [{| type := "text"; text := t |}].

(** [is_sensitive_file] *)
Definition is_sensitive_file (srv : SecurityMCPServer) (filepath : string) : bool :=
  let filepath_lower := lower filepath in
  existsb (fun pattern => str_in pattern filepath_lower) (monitored_patterns srv).

(** [self.event_count += 1] *)
Definition incr_event_count : M unit :=
  fun st =>
    (Return tt,
     {| self := {| ssf_receiver_url := ssf_receiver_url (self st);
                   monitored_patterns := monitored_patterns (self st);
                   event_count := event_count (self st) + 1 |};
        trace := trace st; clock_reads := clock_reads st;
        post_attempts := post_attempts st |}).

(** The [jti] of an event: [f"event-{int(time.time())}-{self.event_count}"]. *)
Definition jti_of (unix_seconds counter : Z) : string :=
  "event-" ++ str_of_int unix_seconds ++ "-" ++ str_of_int counter.

Definition caep_event (jti : string) (iat : Z) (filepath : string)
    (event_timestamp : Z) (access_type : string) : json :=
  JObject [
    ("iss", JString "https://ssf-lab-mcp-server.example.com");
    ("jti", JString jti);
    ("iat", JInt iat);
    ("aud", JString "https://ssf-lab-receiver.example.com");
    ("sub_id", JObject [("format", JString "email");
                        ("email", JString "lab-student@example.com")]);
    ("events", JObject [
      ("https://schemas.openid.net/secevent/caep/event-type/session-risk-change",
       JObject [
         ("initiating_entity", JString "system");
         ("risk_level", JString "high");
         ("risk_type", JString "sensitive_file_access");
         ("reason_admin",
          JObject [("en", JString ("Sensitive file accessed: " ++ basename filepath))]);
         ("event_timestamp", JInt event_timestamp);
         ("custom_data", JObject [("file_path", JString filepath);
                                  ("access_type", JString access_type);
                                  ("lab_session", JBool true)])])])].

(** [generate_caep_event] *)
Definition generate_caep_event (env : Env) (filepath access_type : string) : M unit :=
  incr_event_count ;;;
  t1 <- time_time env ;;
  srv <- get_self ;;
  let jti := jti_of (Z.quot t1 1000000) (event_count srv) in
  t2 <- time_time env ;;
  t3 <- time_time env ;;
  let event := caep_event jti (Z.quot t2 1000000) filepath (Z.quot t3 1000) access_type in
  now <- datetime_now_isoformat env ;;
  print ("🚨 SSF EVENT GENERATED: " ++ now) ;;;
  print ("   File: " ++ filepath) ;;;
  print "   Risk Level: HIGH" ;;;
  print ("   Event ID: " ++ jti) ;;;
  try_except
    (status <- session_post env (ssf_receiver_url srv) event ;;
     if status =? 200
     then print "✅ Event delivered to receiver"
     else print ("⚠️  Receiver returned status: " ++ str_of_int status))
    (fun e => print ("⚠️  Receiver not available: " ++ e)).

(** The sandbox test of [handle_file_read]:
    [str(abs_path).startswith("/workspace/test-files")]. *)
Definition within_sandbox (abs_path : string) : bool :=
  startswith abs_path "/workspace/test-files".

(** [handle_file_read] *)
Definition handle_file_read (env : Env) (filepath : string) : M (list TextContent) :=
  try_except
    (abs_path <- path_resolve env filepath ;;
     srv <- get_self ;;
     let is_sensitive := is_sensitive_file srv abs_path in
     (if is_sensitive then generate_caep_event env abs_path "file_access" else ret tt) ;;;
     if negb (within_sandbox abs_path)
     then ret (text_content
                 ("⚠️  Access denied: File outside allowed directory" ++ String "010" "" ++
                  "Path: " ++ abs_path))
     else
       found <- (e <- path_exists env abs_path ;;
                 if e then path_is_file env abs_path else ret false) ;;
       if found
       then
         content <- path_read_text env abs_path ;;
         let event_notice := if is_sensitive then "🔒 SECURITY EVENT GENERATED" else "" in
         ret (text_content
                ("📄 File: " ++ abs_path ++ String "010" "" ++ event_notice ++
                 String "010" (String "010" "") ++ "Content:" ++ String "010" "" ++ content))
       else ret (text_content ("❌ File not found: " ++ abs_path)))
    (fun e => ret (text_content ("❌ Error reading file: " ++ e))).

(** The body of [for item in abs_path.iterdir()]; [files] is the list
    built so far. *)
Fixpoint list_items (env : Env) (srv : SecurityMCPServer) (abs_path : string)
    (items : list string) (files : list string) : M (list string) :=
  match items with
  | [] => ret files
  | name :: rest =>
      let item := path_join abs_path name in
      let is_sensitive := is_sensitive_file srv item in
      icon <- (if is_sensitive then ret "🔒"
               else d <- path_is_dir env item ;; ret (if d then "📁" else "📄")) ;;
      list_items env srv abs_path rest (files ++ [icon ++ " " ++ name])
  end.

(** [handle_list_files] *)
Definition handle_list_files (env : Env) (dirpath : string) : M (list TextContent) :=
  try_except
    (abs_path <- path_resolve env dirpath ;;
     missing <- (e <- path_exists env abs_path ;;
                 if negb e then ret true
                 else d <- path_is_dir env abs_path ;; ret (negb d)) ;;
     if missing
     then ret (text_content ("❌ Directory not found: " ++ abs_path))
     else
       items <- path_iterdir env abs_path ;;
       srv <- get_self ;;
       files <- list_items env srv abs_path items [] ;;
       ret (text_content
              ("📁 Directory: " ++ abs_path ++ String "010" (String "010" "") ++
               join (String "010" "") files)))
    (fun e => ret (text_content ("❌ Error listing directory: " ++ e))).

(** [handle_call_tool]: [arguments] is the dict of the call. *)
Definition handle_call_tool (env : Env) (name : string)
    (arguments : gmap string string) : M (list TextContent) :=
  if String.eqb name "read_file_secure" then
    match arguments !! "path" with
    | Some path => handle_file_read env path
    | None => raise "'path'"
    end
  else if String.eqb name "list_files_secure" then
    let path := default "/workspace/test-files" (arguments !! "path") in
    handle_list_files env path
  else raise ("Unknown tool: " ++ name).

(** ** A concrete platform: the lab container

    A file system without symbolic links, queried with normalized absolute
    paths: [resolve] gives the path back. *)

Inductive node : Type :=
| File (content : string)
| Dir (children : list string).

Fixpoint find_node (files : list (string * node)) (p : string) : option node :=
  match files with
  | [] => None
  | (q, n) :: rest => if String.eqb p q then Some n else find_node rest p
  end.

Definition env_of (files : list (string * node)) (receiver : outcome Z) : Env := {|
  fs_resolve := fun p => Return p;
  fs_exists := fun p =>
    Return (match find_node files p with Some _ => true | None => false end);
  fs_is_file := fun p =>
    Return (match find_node files p with Some (File _) => true | _ => false end);
  fs_is_dir := fun p =>
    Return (match find_node files p with Some (Dir _) => true | _ => false end);
  fs_read_text := fun p =>
    match find_node files p with
    | Some (File c) => Return c
    | Some (Dir _) => Raise ("[Errno 21] Is a directory: '" ++ p ++ "'")
    | None => Raise ("[Errno 2] No such file or directory: '" ++ p ++ "'")
    end;
  fs_iterdir := fun p =>
    match find_node files p with
    | Some (Dir names) => Return names
    | Some (File _) => Raise ("[Errno 20] Not a directory: '" ++ p ++ "'")
    | None => Raise ("[Errno 2] No such file or directory: '" ++ p ++ "'")
    end;
  clock := fun n => 1700000000000000 + Z.of_nat n;
  isoformat := fun t => str_of_int t;
  http_post := fun _ _ _ => receiver
|}.

Definition lab_files : list (string * node) := [
  ("/workspace/test-files",
   Dir ["public-data.txt"; "api-keys.credentials"; "user-credentials.secret"; "secure"]);
  ("/workspace/test-files/public-data.txt", File "hello");
  ("/workspace/test-files/api-keys.credentials", File "key=abc");
  ("/workspace/test-files/user-credentials.secret", File "token=123");
  ("/workspace/test-files/secure", Dir ["notes.txt"; "archive"]);
  ("/workspace/test-files/secure/notes.txt", File "n");
  ("/workspace/test-files/secure/archive", Dir ["old.txt"; "2023"]);
  ("/workspace/test-files/secure/archive/old.txt", File "o");
  ("/workspace/test-files/secure/archive/2023", Dir []);
  ("/workspace/test-files-evil", Dir ["notes.txt"]);
  ("/workspace/test-files-evil/notes.txt", File "outside");
  ("/etc", Dir ["passwd"]);
  ("/etc/passwd", File "root:x:0:0")
].

Definition receiver_down : outcome Z := Raise "Cannot connect to host localhost:8082".

Definition lab_env : Env := env_of lab_files (Return 200).
Definition lab_env_offline : Env := env_of lab_files receiver_down.

(** The server loop of the MCP library: the tool calls of a process run
    are handled one after the other; an exception of [handle_call_tool] is
    reported to the client and the server goes on. *)
Fixpoint serve (env : Env) (calls : list (string * gmap string string))
    (st : State) : State :=
  match calls with
  | [] => st
  | (name, arguments) :: rest => serve env rest (snd (handle_call_tool env name arguments st))
  end.

(** ** What is observed of a run *)

(** The bodies posted to the receiver, oldest first. *)
Fixpoint posts (tr : list effect) : list json :=
  match tr with
  | [] => []
  | Posted _ body _ _ :: rest => body :: posts rest
  | _ :: rest => posts rest
  end.

(** The lines printed on the console, oldest first. *)
Fixpoint printed (tr : list effect) : list string :=
  match tr with
  | [] => []
  | Printed line :: rest => line :: printed rest
  | _ :: rest => printed rest
  end.

(** The file-system queries, oldest first. *)
Fixpoint fs_calls (tr : list effect) : list (fs_op * string) :=
  match tr with
  | [] => []
  | FsCall op p :: rest => (op, p) :: fs_calls rest
  | _ :: rest => fs_calls rest
  end.

Definition json_string (j : option json) : option string :=
  match j with
  | Some (JString s) => Some s
  | _ => None
  end.

Definition event_id (ev : json) : option string := json_string (json_get "jti" ev).

(** [custom_data] of the session-risk-change entry of an event. *)
Definition custom_data (k : string) (ev : json) : option string :=
  match json_get "events" ev with
  | Some evs =>
      match json_get
              "https://schemas.openid.net/secevent/caep/event-type/session-risk-change"
              evs with
      | Some e =>
          match json_get "custom_data" e with
          | Some cd => json_string (json_get k cd)
          | None => None
          end
      | None => None
      end
  | None => None
  end.

(** The event ids of a run. *)
Definition event_ids (tr : list effect) : list (option string) := map event_id (posts tr).

(** ** The words of the specification *)

(** [pat] is a substring of [s]. *)
Definition occurs_in (pat s : string) : Prop := exists a b : string, s = a ++ pat ++ b.


(** Segment-aware containment: the path is the root, or begins with the
    root followed by a separator. *)
Definition contained_in (root path : string) : bool :=
  String.eqb path root || startswith path (root ++ "/").

Definition sandbox_root : string := "/workspace/test-files".

(** The three answers of [handle_file_read] and [handle_list_files] that
    carry no content. *)
Definition denial (abs_path : string) : list TextContent :=
  text_content ("⚠️  Access denied: File outside allowed directory" ++ String "010" "" ++
                "Path: " ++ abs_path).

Definition file_not_found (abs_path : string) : list TextContent :=
  text_content ("❌ File not found: " ++ abs_path).

Definition directory_not_found (abs_path : string) : list TextContent :=
  text_content ("❌ Directory not found: " ++ abs_path).







(** A pattern set written in lower case, as the one of [__init__]. *)
Definition lower_case (patterns : list string) : Prop :=
  Forall (fun pat => lower pat = pat) patterns.


(** ** Definitions used by the statements *)

(** The event that [generate_caep_event] builds in state [st]. *)
Definition event_at (env : Env) (st : State) (filepath access_type : string) : json :=
  let n := clock_reads st in
  caep_event
    (jti_of (Z.quot (clock env n) 1000000) (event_count (self st) + 1))
    (Z.quot (clock env (S n)) 1000000) filepath
    (Z.quot (clock env (S (S n))) 1000) access_type.

(** The server after one more event. *)
Definition counted (srv : SecurityMCPServer) : SecurityMCPServer := {|
  ssf_receiver_url := ssf_receiver_url srv;
  monitored_patterns := monitored_patterns srv;
  event_count := event_count srv + 1
|}.




(** A call either leaves the server and the posts, or counts and posts
    one event. *)
Definition one_step (env : Env) (st st' : State) : Prop :=
  (self st' = self st /\ posts (trace st') = posts (trace st)) \/
  (exists abs,
     self st' = counted (self st) /\
     posts (trace st') =
       (posts (trace st) ++ [event_at env st abs "file_access"])%list).

(** ** The tool list

    [handle_list_tools]: the tools announced to the client.  An input
    schema is kept by its properties and its [required] list; a schema
    without a [required] key requires nothing. *)

Record ToolProperty : Type := {
  prop_name : string;
  prop_type : string;
  prop_description : string;
  prop_default : option string
}.

Record Tool : Type := {
  tool_name : string;
  tool_description : string;
  tool_properties : list ToolProperty;
  tool_required : list string
}.

Definition handle_list_tools : list Tool := [
  {| tool_name := "read_file_secure";
     tool_description := "Read file contents with security monitoring";
     tool_properties :=
       [{| prop_name := "path"; prop_type := "string";
           prop_description := "Path to the file to read";
           prop_default := None |}];
     tool_required := ["path"] |};
  {| tool_name := "list_files_secure";
     tool_description := "List files in directory with security monitoring";
     tool_properties :=
       [{| prop_name := "path"; prop_type := "string";
           prop_description := "Directory path to list";
           prop_default := Some "/workspace/test-files" |}];
     tool_required := [] |}
].

(** ** The test client, [mcp-server/test_client.py]

    Each test builds its own [SecurityMCPServer()]; [self] of the state is
    the instance bound to [server] in the running test. *)

Module TestClient.

(** [server = SecurityMCPServer()] *)
Definition new_server : M unit :=
  fun st =>
    (Return tt,
     {| self := init; trace := trace st;
        clock_reads := clock_reads st; post_attempts := post_attempts st |}).

(** [for content in result: print(content.text)] *)
Fixpoint print_all (result : list TextContent) : M unit :=
  match result with
  | [] => ret tt
  | content :: rest => print (text content) ;;; print_all rest
  end.

Definition separator : string := "━━━━━━━━━━━━━━━━━━━━━━━━━━━━━━━━━━━━━━━━".

(** [test_file_access] *)
Definition test_file_access (env : Env) (filepath : string) : M unit :=
  print (String "010" "" ++ "🧪 Testing file access: " ++ filepath) ;;;
  print separator ;;;
  new_server ;;;
  try_except
    (result <- handle_file_read env filepath ;; print_all result)
    (fun e => print ("❌ Error: " ++ e)).

(** [test_directory_listing]; [main] calls it with the default
    [dirpath], ["/workspace/test-files"]. *)
Definition test_directory_listing (env : Env) (dirpath : string) : M unit :=
  print (String "010" "" ++ "📁 Testing directory listing: " ++ dirpath) ;;;
  print separator ;;;
  new_server ;;;
  try_except
    (result <- handle_list_files env dirpath ;; print_all result)
    (fun e => print ("❌ Error: " ++ e)).

(** [for filepath in test_files: await test_file_access(filepath)] *)
Fixpoint test_each (env : Env) (test_files : list string) : M unit :=
  match test_files with
  | [] => ret tt
  | filepath :: rest => test_file_access env filepath ;;; test_each env rest
  end.

(** [main]; [args] is [sys.argv[1:]]. *)
Definition main (env : Env) (args : list string) : M unit :=
  print "🚀 SSF Security MCP Server - Test Client" ;;;
  print "========================================" ;;;
  test_directory_listing env "/workspace/test-files" ;;;
  let test_files :=
    match args with
    | _ :: _ => args
    | [] => ["/workspace/test-files/public-data.txt";
             "/workspace/test-files/user-credentials.secret";
             "/workspace/test-files/api-keys.credentials"]
    end in
  test_each env test_files ;;;
  print (String "010" "" ++ "✅ Test completed!") ;;;
  print (String "010" "" ++ "💡 Check the SSF Receiver dashboard at http://localhost:8082") ;;;
  print "   to see any security events that were generated.".

End TestClient.

(** ** More definitions used by the statements *)

(** The line that [generate_caep_event] prints for an answer of the
    receiver. *)
Definition delivery_line (answer : outcome Z) : string :=
  match answer with
  | Return status =>
      if status =? 200 then "✅ Event delivered to receiver"
      else "⚠️  Receiver returned status: " ++ str_of_int status
  | Raise e => "⚠️  Receiver not available: " ++ e
  end.


(** No character of the string is a slash. *)
Fixpoint slash_free (s : string) : bool :=
  match s with
  | EmptyString => true
  | String c s' => negb (Ascii.eqb c "/") && slash_free s'
  end.

(** The paths of [files] that resolve to a sensitive path for a fresh
    server. *)
Definition sensitive_tests (env : Env) (files : list string) : list string :=
  List.filter (fun f =>
            match fs_resolve env f with
            | Return abs => is_sensitive_file init abs
            | Raise _ => false
            end) files.

(** [reason_admin.en] of the session-risk-change entry of an event. *)
Definition reason_admin (ev : json) : option string :=
  match json_get "events" ev with
  | Some evs =>
      match json_get
              "https://schemas.openid.net/secevent/caep/event-type/session-risk-change"
              evs with
      | Some e =>
          match json_get "reason_admin" e with
          | Some r => json_string (json_get "en" r)
          | None => None
          end
      | None => None
      end
  | None => None
  end.

(** The directory tests that a listing makes on the children: one for
    each child that is not sensitive, in order. *)
Definition child_queries (srv : SecurityMCPServer) (abs_path : string)
    (items : list string) : list (fs_op * string) :=
  map (fun name => (IsDir, path_join abs_path name))
      (List.filter (fun name => negb (is_sensitive_file srv (path_join abs_path name)))
                   items).

(** The state in which a test of the client calls its handler: the lines
    of the header are printed and [server] is a new instance. *)
Definition prepared (header : list string) (st : State) : State :=
  {| self := init;
     trace := trace st ++ map Printed header;
     clock_reads := clock_reads st;
     post_attempts := post_attempts st |}.

(** A file system where every resolution fails. *)
Definition looping_env : Env := {|
  fs_resolve := fun p => Raise ("Symlink loop from '" ++ p ++ "'");
  fs_exists := fs_exists lab_env;
  fs_is_file := fs_is_file lab_env;
  fs_is_dir := fs_is_dir lab_env;
  fs_read_text := fs_read_text lab_env;
  fs_iterdir := fs_iterdir lab_env;
  clock := clock lab_env;
  isoformat := isoformat lab_env;
  http_post := http_post lab_env
|}.


(** The lab file system where the type of one child cannot be told. *)
Definition guarded_env : Env := {|
  fs_resolve := fs_resolve lab_env;
  fs_exists := fs_exists lab_env;
  fs_is_file := fs_is_file lab_env;
  fs_is_dir := fun p =>
    if String.eqb p "/workspace/test-files/secure"
    then Raise "[Errno 13] Permission denied: '/workspace/test-files/secure'"
    else fs_is_dir lab_env p;
  fs_read_text := fs_read_text lab_env;
  fs_iterdir := fs_iterdir lab_env;
  clock := clock lab_env;
  isoformat := isoformat lab_env;
  http_post := http_post lab_env
|}.

(** * Properties *)

(** ** Strings *)

Section Strings.

Lemma startswith_iff (s p : string) :
  startswith s p = true <-> exists t, s = p ++ t.
Proof.
  unfold startswith. revert s.
  induction p as [|c p IH]; intros s; simpl.
  - destruct s; split; eauto.
  - destruct s as [|d s]; simpl.
    + split; [discriminate | intros [t Ht]; discriminate].
    + destruct (ascii_dec c d) as [->|Hne].
      * rewrite IH. split; intros [t Ht]; exists t; simpl in *; congruence.
      * split; [discriminate | intros [t Ht]; simpl in Ht; congruence].
Qed.

Lemma str_in_iff (pat s : string) : str_in pat s = true <-> occurs_in pat s.
Proof.
  unfold occurs_in. induction s as [|c s IH].
  - cbn [str_in]. rewrite orb_false_r, startswith_iff. split.
    + intros [t Ht]. exists "", t. exact Ht.
    + intros [a [b Hab]]. destruct a; [exists b; exact Hab | discriminate].
  - cbn [str_in]. rewrite orb_true_iff, startswith_iff, IH. split.
    + intros [[t Ht] | [a [b Hab]]].
      * exists "", t. exact Ht.
      * exists (String c a), b. simpl. now rewrite Hab.
    + intros [a [b Hab]]. destruct a as [|d a]; simpl in Hab.
      * left. now exists b.
      * right. exists a, b. congruence.
Qed.

Lemma str_app_assoc (a b c : string) : (a ++ b) ++ c = a ++ b ++ c.
Proof. induction a; simpl; congruence. Qed.




End Strings.

(** ** The classifier *)

Lemma is_sensitive_file_iff (srv : SecurityMCPServer) (filepath : string) :
  is_sensitive_file srv filepath = true <->
  exists pat, In pat (monitored_patterns srv) /\ occurs_in pat (lower filepath).
Proof.
  unfold is_sensitive_file. rewrite existsb_exists.
  split; intros [pat [Hin H]]; exists pat; split; auto; now apply str_in_iff.
Qed.



Lemma init_lower_case : lower_case (monitored_patterns init).
Proof. unfold lower_case. simpl. repeat constructor. Qed.

(** ** Traces *)

Section Traces.

Lemma posts_app (a b : list effect) : posts (a ++ b) = (posts a ++ posts b)%list.
Proof.
  induction a as [|[]]; simpl; auto.
  now rewrite IHa.
Qed.

Lemma printed_app (a b : list effect) : printed (a ++ b) = (printed a ++ printed b)%list.
Proof.
  induction a as [|[]]; simpl; auto.
  now rewrite IHa.
Qed.

Lemma fs_calls_app (a b : list effect) : fs_calls (a ++ b) = (fs_calls a ++ fs_calls b)%list.
Proof.
  induction a as [|[]]; simpl; auto.
  now rewrite IHa.
Qed.

End Traces.

Create Rewrite HintDb trace.
#[local] Hint Rewrite posts_app printed_app fs_calls_app : trace.
#[local] Hint Rewrite <- app_assoc : trace.
#[local] Hint Rewrite app_nil_r : trace.

(** Unfold the monad of a handler down to the answers of the platform. *)
Ltac run :=
  cbv [bind ret raise try_except print time_time datetime_now_isoformat fs_call
       path_resolve path_exists path_is_file path_is_dir path_read_text path_iterdir
       session_post incr_event_count get_self record];
  cbn [self trace clock_reads post_attempts event_count ssf_receiver_url
       monitored_patterns fst snd].

(** ** The emitter *)

Lemma generate_caep_event_returns (env : Env) (filepath access_type : string) (st : State) :
  exists st',
    generate_caep_event env filepath access_type st = (Return tt, st') /\
    self st' = counted (self st) /\
    posts (trace st') = (posts (trace st) ++ [event_at env st filepath access_type])%list /\
    fs_calls (trace st') = fs_calls (trace st) /\
    length (printed (trace st')) = (length (printed (trace st)) + 5)%nat.
Proof.
  unfold generate_caep_event, event_at. run.
  destruct (http_post env _ _ _) as [status|e]; [destruct (status =? 200)|];
    (eexists; split; [reflexivity|]);
    cbn [self trace]; autorewrite with trace; simpl;
    rewrite ?length_app; simpl; repeat split; auto; lia.
Qed.

Lemma event_at_custom_data (env : Env) (st : State) (filepath access_type : string) :
  custom_data "access_type" (event_at env st filepath access_type) = Some access_type /\
  custom_data "file_path" (event_at env st filepath access_type) = Some filepath.
Proof. split; reflexivity. Qed.

Lemma event_at_id (env : Env) (st : State) (filepath access_type : string) :
  event_id (event_at env st filepath access_type) =
  Some (jti_of (Z.quot (clock env (clock_reads st)) 1000000) (event_count (self st) + 1)).
Proof. reflexivity. Qed.

(** ** Reading *)

(** Case analysis on the answers of the platform. *)
Ltac break :=
  repeat (cbn beta iota;
          match goal with
          | |- context [match ?x with _ => _ end] =>
              lazymatch x with
              | context [match _ with _ => _ end] => fail
              | _ => destruct x eqn:?
              end
          end).

(** Name the state [st1] that the call of [generate_caep_event] in the goal
    leaves, with its server and its posts. *)
Ltac emitted st1 Hself Hposts Hfs :=
  match goal with
  | |- context [generate_caep_event ?e ?f ?a ?s] =>
      destruct (generate_caep_event_returns e f a s)
        as (st1 & -> & Hself & Hposts & Hfs & _);
      unfold event_at in Hself, Hposts;
      cbn [self trace clock_reads event_count] in Hself, Hposts, Hfs;
      autorewrite with trace in Hposts, Hfs; cbn [posts fs_calls] in Hposts, Hfs;
      rewrite ?app_nil_r in Hposts, Hfs
  end.

(** The state in which [handle_file_read] reaches its sandbox test. *)
Lemma read_emission (env : Env) (p abs : string) (st : State) :
  fs_resolve env p = Return abs ->
  let st' := snd (handle_file_read env p st) in
  if is_sensitive_file (self st) abs
  then self st' = counted (self st) /\
       posts (trace st') = (posts (trace st) ++ [event_at env st abs "file_access"])%list
  else self st' = self st /\
       posts (trace st') = posts (trace st) /\
       printed (trace st') = printed (trace st).
Proof.
  intros Hres. unfold handle_file_read. run. rewrite Hres.
  destruct (is_sensitive_file (self st) abs).
  - emitted st1 Hself Hposts Hfs.
    break; cbn [snd self trace]; autorewrite with trace; simpl;
      rewrite ?app_nil_r; auto.
  - break; cbn [snd self trace]; autorewrite with trace; simpl;
      rewrite ?app_nil_r; auto.
Qed.

(** Outside the prefix test the answer is the denial, and the file system
    is asked nothing after the resolution of the path. *)
Lemma read_outside_prefix (env : Env) (p abs : string) (st : State) :
  fs_resolve env p = Return abs ->
  within_sandbox abs = false ->
  fst (handle_file_read env p st) = Return (denial abs) /\
  fs_calls (trace (snd (handle_file_read env p st))) =
    (fs_calls (trace st) ++ [(Resolve, p)])%list.
Proof.
  intros Hres Hout. unfold handle_file_read. run. rewrite Hres, Hout.
  destruct (is_sensitive_file (self st) abs); cbn [negb].
  - emitted st1 Hself Hposts Hfs. cbn [fst snd]. now rewrite Hfs.
  - cbn [fst snd trace]. autorewrite with trace. now cbn [fs_calls].
Qed.




(** ** The sandbox test *)

(** The test of [handle_file_read] is the plain prefix test. *)
Lemma within_sandbox_iff (abs : string) :
  within_sandbox abs = true <-> exists t, abs = sandbox_root ++ t.
Proof. apply startswith_iff. Qed.

(** Every path contained in the root passes the test. *)
Lemma contained_in_within_sandbox (abs : string) :
  contained_in sandbox_root abs = true -> within_sandbox abs = true.
Proof.
  unfold contained_in. rewrite orb_true_iff, String.eqb_eq, startswith_iff.
  intros [-> | [t ->]]; apply within_sandbox_iff.
  - exists "". unfold sandbox_root. reflexivity.
  - exists ("/" ++ t). now rewrite str_app_assoc.
Qed.

(** A read whose path resolves is denied exactly when the prefix test
    fails. *)
Lemma read_denied_iff (env : Env) (p abs : string) (st : State) :
  fs_resolve env p = Return abs ->
  fst (handle_file_read env p st) = Return (denial abs) <-> within_sandbox abs = false.
Proof.
  intros Hres. split.
  - destruct (within_sandbox abs) eqn:Hin; [|reflexivity].
    unfold handle_file_read. run. rewrite Hres, Hin. cbn [negb].
    destruct (is_sensitive_file (self st) abs);
      [emitted st1 Hself Hposts Hfs|];
      (destruct (fs_exists env abs) as [[|]|e1];
       [destruct (fs_is_file env abs) as [[|]|e2];
        [destruct (fs_read_text env abs) as [content|e3]|..]|..]);
      cbn [fst]; unfold denial, text_content; simpl; discriminate.
  - intros Hout. now apply read_outside_prefix.
Qed.

(** C1: the sandbox test of [handle_file_read] accepts the sibling
    [/workspace/test-files-evil] of the sandbox root, which is neither the
    root nor below it: the read is not denied and goes on to the file
    system. *)
Theorem sandbox_test_accepts_sibling :
  contained_in sandbox_root "/workspace/test-files-evil" = false /\
  within_sandbox "/workspace/test-files-evil" = true /\
  fst (handle_file_read lab_env "/workspace/test-files-evil" (start init)) =
    Return (file_not_found "/workspace/test-files-evil").
Proof. repeat split; vm_compute; reflexivity. Qed.

(** C2: a regular file in the sibling directory [/workspace/test-files-evil]
    lies outside the sandbox root, yet [handle_file_read] reads it and
    answers with its content. *)
Theorem read_returns_content_of_sibling :
  contained_in sandbox_root "/workspace/test-files-evil/notes.txt" = false /\
  fst (handle_file_read lab_env "/workspace/test-files-evil/notes.txt" (start init)) =
    Return (text_content
              ("📄 File: /workspace/test-files-evil/notes.txt" ++ String "010" "" ++
               String "010" (String "010" "") ++ "Content:" ++ String "010" "" ++
               "outside")) /\
  fs_calls (trace (snd (handle_file_read lab_env "/workspace/test-files-evil/notes.txt"
                          (start init)))) =
    [(Resolve, "/workspace/test-files-evil/notes.txt");
     (Exists, "/workspace/test-files-evil/notes.txt");
     (IsFile, "/workspace/test-files-evil/notes.txt");
     (ReadText, "/workspace/test-files-evil/notes.txt")].
Proof. repeat split; vm_compute; reflexivity. Qed.

(** ** The classifier against its specification *)




(** ** Listing *)

Section Loop.

Variables (env : Env) (srv : SecurityMCPServer) (abs : string).

(** The loop asks the file system and touches nothing else. *)
Lemma list_items_frame (items files : list string) (st : State) :
  let st' := snd (list_items env srv abs items files st) in
  self st' = self st /\
  posts (trace st') = posts (trace st) /\
  printed (trace st') = printed (trace st) /\
  clock_reads st' = clock_reads st /\
  post_attempts st' = post_attempts st.
Proof.
  revert files st. induction items as [|name rest IH]; intros files st.
  - simpl. auto.
  - cbn [list_items]. run.
    destruct (is_sensitive_file srv (path_join abs name)).
    + apply IH.
    + destruct (fs_is_dir env (path_join abs name)) as [d|e].
      * match goal with
        | |- context [list_items env srv abs rest ?f ?s] =>
            destruct (IH f s) as (H1 & H2 & H3 & H4 & H5)
        end.
        cbn [self trace clock_reads post_attempts] in *.
        autorewrite with trace in *. cbn [posts printed] in *.
        rewrite ?app_nil_r in *. auto.
      * cbn [snd self trace clock_reads post_attempts].
        autorewrite with trace. cbn [posts printed].
        rewrite ?app_nil_r. auto.
Qed.



End Loop.

(** Listing changes neither the server nor what was posted and printed. *)
Lemma handle_list_files_frame (env : Env) (dirpath : string) (st : State) :
  self (snd (handle_list_files env dirpath st)) = self st /\
  posts (trace (snd (handle_list_files env dirpath st))) = posts (trace st) /\
  printed (trace (snd (handle_list_files env dirpath st))) = printed (trace st) /\
  clock_reads (snd (handle_list_files env dirpath st)) = clock_reads st /\
  post_attempts (snd (handle_list_files env dirpath st)) = post_attempts st.
Proof.
  unfold handle_list_files. run.
  destruct (fs_resolve env dirpath) as [abs|e0];
    [destruct (fs_exists env abs) as [[|]|e1];
     [destruct (fs_is_dir env abs) as [[|]|e2];
      [destruct (fs_iterdir env abs) as [items|e3]|..]|..]|];
    cbn [negb snd self trace clock_reads post_attempts];
    try (autorewrite with trace; cbn [posts printed]; rewrite ?app_nil_r; now auto).
  match goal with
  | |- context [list_items ?e ?s ?a ?i ?f ?t] =>
      pose proof (list_items_frame e s a i f t) as Hf; cbv zeta in Hf;
      destruct (list_items e s a i f t) as [[files|e4] st2]
  end;
    cbn [snd self trace clock_reads post_attempts] in *;
    autorewrite with trace in Hf; cbn [posts printed] in Hf;
    rewrite ?app_nil_r in Hf; exact Hf.
Qed.

(** C9: [handle_list_files] leaves the server, and with it
    [event_count], as it was, posts no event and prints nothing, whatever
    the path and whatever the directory holds; it reads no clock and makes
    no attempt to reach the receiver. *)
Theorem list_never_emits (env : Env) (dirpath : string) (st : State) :
  self (snd (handle_list_files env dirpath st)) = self st /\
  event_count (self (snd (handle_list_files env dirpath st))) = event_count (self st) /\
  posts (trace (snd (handle_list_files env dirpath st))) = posts (trace st) /\
  printed (trace (snd (handle_list_files env dirpath st))) = printed (trace st) /\
  clock_reads (snd (handle_list_files env dirpath st)) = clock_reads st /\
  post_attempts (snd (handle_list_files env dirpath st)) = post_attempts st.
Proof.
  destruct (handle_list_files_frame env dirpath st) as (Hself & Hrest).
  split; [exact Hself | split; [now rewrite Hself | exact Hrest]].
Qed.


(** The three shapes of an answer of [handle_list_files]. *)
Lemma list_answers (env : Env) (p : string) (st : State) :
  (exists abs, fst (handle_list_files env p st) = Return (directory_not_found abs)) \/
  (exists abs files,
     fst (handle_list_files env p st) =
       Return (text_content
                 ("📁 Directory: " ++ abs ++ String "010" (String "010" "") ++
                  join (String "010" "") files))) \/
  (exists e,
     fst (handle_list_files env p st) =
       Return (text_content ("❌ Error listing directory: " ++ e))).
Proof.
  unfold handle_list_files. run.
  destruct (fs_resolve env p) as [abs|e0]; [|right; right; eauto].
  destruct (fs_exists env abs) as [[|]|e1]; cbn [negb];
    [|left; eauto|right; right; eauto].
  destruct (fs_is_dir env abs) as [[|]|e2]; cbn [negb];
    [|left; eauto|right; right; eauto].
  destruct (fs_iterdir env abs) as [items|e3]; [|right; right; eauto].
  match goal with
  | |- context [list_items ?e ?s ?a ?i ?f ?t] =>
      destruct (list_items e s a i f t) as [[files|e4] st2]
  end; [right; left; eauto | right; right; eauto].
Qed.








(** ** Delivery *)





(** ** Event ids *)

Section EventIds.








End EventIds.

(** ** Runs *)

Lemma handle_file_read_step (env : Env) (p : string) (st : State) :
  one_step env st (snd (handle_file_read env p st)).
Proof.
  destruct (fs_resolve env p) as [abs|e] eqn:Hres.
  - pose proof (read_emission env p abs st Hres) as H. cbv zeta in H.
    destruct (is_sensitive_file (self st) abs).
    + right. exists abs. exact H.
    + left. destruct H as (H1 & H2 & _). auto.
  - left. unfold handle_file_read. run. rewrite Hres.
    cbn [snd self trace]. autorewrite with trace. cbn [posts].
    rewrite ?app_nil_r. auto.
Qed.

Lemma handle_call_tool_step (env : Env) (name : string)
    (arguments : gmap string string) (st : State) :
  one_step env st (snd (handle_call_tool env name arguments st)).
Proof.
  unfold handle_call_tool.
  destruct (String.eqb name "read_file_secure").
  - destruct (arguments !! "path") as [path|].
    + apply handle_file_read_step.
    + left. auto.
  - destruct (String.eqb name "list_files_secure").
    + left. destruct (handle_list_files_frame env
                        (default "/workspace/test-files" (arguments !! "path")) st)
        as (H1 & H2 & _).
      auto.
    + left. auto.
Qed.






(** * Further properties of the server and of the test client *)

(** ** The emitter, effect by effect *)

(** The state that [generate_caep_event] leaves. *)
Lemma generate_caep_event_exact (env : Env) (filepath access_type : string) (st : State) :
  generate_caep_event env filepath access_type st =
  (Return tt,
   {| self := counted (self st);
      trace :=
        trace st ++
        [Printed ("🚨 SSF EVENT GENERATED: " ++
                  isoformat env (clock env (3 + clock_reads st)));
         Printed ("   File: " ++ filepath);
         Printed "   Risk Level: HIGH";
         Printed ("   Event ID: " ++
                  jti_of (Z.quot (clock env (clock_reads st)) 1000000)
                         (event_count (self st) + 1));
         Posted (ssf_receiver_url (self st)) (event_at env st filepath access_type)
                [("Content-Type", "application/json")] 2;
         Printed (delivery_line
                    (http_post env (post_attempts st) (ssf_receiver_url (self st))
                       (event_at env st filepath access_type)))];
      clock_reads := 4 + clock_reads st;
      post_attempts := S (post_attempts st) |}).
Proof.
  unfold generate_caep_event, event_at, counted, delivery_line. run.
  destruct (http_post env _ _ _) as [status|e]; [destruct (status =? 200)|];
    cbn [self trace clock_reads post_attempts];
    repeat rewrite <- app_assoc; reflexivity.
Qed.


(** ** The reason of an event *)

Lemma basename_from_slash_free (acc name : string) :
  slash_free name = true -> basename_from acc name = acc ++ name.
Proof.
  revert acc. induction name as [|c name IH]; intros acc H; simpl in *.
  - induction acc; simpl; congruence.
  - apply andb_true_iff in H. destruct H as [Hc Hn].
    destruct (Ascii.eqb c "/"); [discriminate |].
    rewrite IH by exact Hn. now rewrite str_app_assoc.
Qed.

Lemma basename_from_last (acc dir name : string) :
  slash_free name = true -> basename_from acc (dir ++ String "/" name) = name.
Proof.
  revert acc. induction dir as [|c dir IH]; intros acc H; simpl.
  - now apply (basename_from_slash_free "").
  - destruct (Ascii.eqb c "/"); now apply IH.
Qed.

(** X2: the event of a file [dir/name], where [name] has no slash, gives
    as its reason "Sensitive file accessed: " followed by [name] alone, and
    carries the full path only in [custom_data]. *)
Theorem event_reason_is_basename (env : Env) (dir name access_type : string)
    (st : State) :
  slash_free name = true ->
  exists ev,
    posts (trace (snd (generate_caep_event env (dir ++ "/" ++ name) access_type st))) =
      (posts (trace st) ++ [ev])%list /\
    reason_admin ev = Some ("Sensitive file accessed: " ++ name) /\
    custom_data "file_path" ev = Some (dir ++ "/" ++ name).
Proof.
  intros Hname. rewrite generate_caep_event_exact. cbn [snd trace].
  eexists. split; [|split].
  - rewrite posts_app. cbn [posts]. reflexivity.
  - unfold event_at, caep_event, reason_admin. cbn.
    unfold basename. change (dir ++ "/" ++ name) with (dir ++ String "/" name).
    now rewrite basename_from_last.
  - reflexivity.
Qed.

Lemma event_reason_is_basename_witness :
  exists ev,
    posts (trace (snd (generate_caep_event lab_env
                         ("/workspace/test-files" ++ "/" ++ "api-keys.credentials")
                         "file_access" (start init)))) = ([] ++ [ev])%list /\
    reason_admin ev = Some ("Sensitive file accessed: " ++ "api-keys.credentials") /\
    custom_data "file_path" ev =
      Some ("/workspace/test-files" ++ "/" ++ "api-keys.credentials").
Proof.
  exact (event_reason_is_basename lab_env "/workspace/test-files" "api-keys.credentials"
           "file_access" (start init) eq_refl).
Defined.

(** ** Reading, answer by answer *)

(** [handle_file_read] without its monad: one branch for each answer. *)
Lemma handle_file_read_branches (env : Env) (p : string) (st : State) :
  handle_file_read env p st =
  let st0 := record (FsCall Resolve p) st in
  match fs_resolve env p with
  | Raise e => (Return (text_content ("❌ Error reading file: " ++ e)), st0)
  | Return abs =>
      let sensitive := is_sensitive_file (self st) abs in
      let st1 := if sensitive
                 then snd (generate_caep_event env abs "file_access" st0)
                 else st0 in
      if within_sandbox abs then
        let st2 := record (FsCall Exists abs) st1 in
        match fs_exists env abs with
        | Raise e => (Return (text_content ("❌ Error reading file: " ++ e)), st2)
        | Return false => (Return (file_not_found abs), st2)
        | Return true =>
            let st3 := record (FsCall IsFile abs) st2 in
            match fs_is_file env abs with
            | Raise e => (Return (text_content ("❌ Error reading file: " ++ e)), st3)
            | Return false => (Return (file_not_found abs), st3)
            | Return true =>
                let st4 := record (FsCall ReadText abs) st3 in
                match fs_read_text env abs with
                | Raise e => (Return (text_content ("❌ Error reading file: " ++ e)), st4)
                | Return content =>
                    (Return (text_content
                               ("📄 File: " ++ abs ++ String "010" "" ++
                                (if sensitive then "🔒 SECURITY EVENT GENERATED" else "") ++
                                String "010" (String "010" "") ++ "Content:" ++
                                String "010" "" ++ content)), st4)
                end
            end
        end
      else (Return (denial abs), st1)
  end.
Proof.
  cbv zeta. unfold handle_file_read. run.
  destruct (fs_resolve env p) as [abs|e0]; [|reflexivity].
  destruct (is_sensitive_file (self st) abs);
    [rewrite generate_caep_event_exact; cbn [snd]|];
    (destruct (within_sandbox abs); cbn [negb]; [|reflexivity]);
    (destruct (fs_exists env abs) as [[|]|e1]; [|reflexivity..]);
    (destruct (fs_is_file env abs) as [[|]|e2]; [|reflexivity..]);
    destruct (fs_read_text env abs) as [content|e3]; reflexivity.
Qed.

(** A read returns one text. *)
Lemma handle_file_read_total (env : Env) (p : string) (st : State) :
  exists t st',
    handle_file_read env p st = (Return [{| type := "text"; text := t |}], st').
Proof.
  rewrite handle_file_read_branches. cbv zeta.
  destruct (fs_resolve env p) as [abs|e0]; [|eauto].
  destruct (within_sandbox abs); [|unfold denial, text_content; eauto].
  destruct (fs_exists env abs) as [[|]|e1];
    [|unfold file_not_found, text_content; eauto..].
  destruct (fs_is_file env abs) as [[|]|e2];
    [|unfold file_not_found, text_content; eauto..].
  destruct (fs_read_text env abs) as [content|e3]; unfold text_content; eauto.
Qed.

(** X3: [handle_file_read] never raises: whatever the file system and
    the receiver do, it returns one [TextContent], of type ["text"]. *)
Theorem handle_file_read_returns (env : Env) (p : string) (st : State) :
  exists t st',
    handle_file_read env p st = (Return [{| type := "text"; text := t |}], st').
Proof. apply handle_file_read_total. Qed.

(** X4: when the resolution of the path raises, the answer is "Error
    reading file" with the message of the exception; nothing is classified,
    no event is counted or posted and the file system is asked nothing
    more. *)
Theorem read_resolve_error (env : Env) (p e : string) (st : State) :
  fs_resolve env p = Raise e ->
  handle_file_read env p st =
    (Return (text_content ("❌ Error reading file: " ++ e)),
     record (FsCall Resolve p) st).
Proof.
  intros Hres. rewrite handle_file_read_branches. cbv zeta. now rewrite Hres.
Qed.

Lemma read_resolve_error_witness :
  handle_file_read looping_env "/workspace/test-files/a.secret" (start init) =
    (Return (text_content ("❌ Error reading file: " ++
                           "Symlink loop from '/workspace/test-files/a.secret'")),
     record (FsCall Resolve "/workspace/test-files/a.secret") (start init)).
Proof.
  exact (read_resolve_error looping_env "/workspace/test-files/a.secret" _ (start init)
           eq_refl).
Defined.



(** X6: for a path that resolves under the prefix, with existence and
    file tests that answer, [handle_file_read] answers "File not found"
    exactly when the path does not exist or is not a regular file, a
    directory for instance. *)
Theorem read_not_found_iff (env : Env) (p abs : string) (e f : bool) (st : State) :
  fs_resolve env p = Return abs ->
  within_sandbox abs = true ->
  fs_exists env abs = Return e ->
  fs_is_file env abs = Return f ->
  fst (handle_file_read env p st) = Return (file_not_found abs) <->
  e = false \/ f = false.
Proof.
  intros Hres Hin He Hf. rewrite handle_file_read_branches. cbv zeta.
  rewrite Hres, Hin, He. destruct e; [rewrite Hf; destruct f|]; cbn [fst].
  - split; [|intros [H | H]; discriminate].
    destruct (fs_read_text env abs) as [content|e3]; cbn [fst];
      unfold file_not_found, text_content; simpl; intros H; discriminate.
  - split; auto.
  - split; auto.
Qed.

Lemma read_not_found_iff_witness :
  fst (handle_file_read lab_env "/workspace/test-files/secure" (start init)) =
    Return (file_not_found "/workspace/test-files/secure").
Proof.
  apply (read_not_found_iff lab_env "/workspace/test-files/secure"
           "/workspace/test-files/secure" true false (start init)
           eq_refl eq_refl eq_refl eq_refl).
  right. reflexivity.
Defined.

(** X7: [handle_file_read] reads the content of at most one file, the
    resolved path, and only after the prefix test, the existence test and
    the file test have all passed on it; every other query for content in
    the trace was there before the call. *)
Theorem read_text_is_guarded (env : Env) (p q : string) (st : State) :
  In (ReadText, q) (fs_calls (trace (snd (handle_file_read env p st)))) ->
  In (ReadText, q) (fs_calls (trace st)) \/
  (fs_resolve env p = Return q /\
   within_sandbox q = true /\
   fs_exists env q = Return true /\
   fs_is_file env q = Return true).
Proof.
  rewrite handle_file_read_branches. cbv zeta.
  destruct (fs_resolve env p) as [abs|e0] eqn:Hres.
  2:{ unfold record. cbn [snd trace]. rewrite fs_calls_app. cbn [fs_calls].
      intros H. apply in_app_or in H. destruct H as [H | [H | []]];
        [now left | discriminate]. }
  assert (Hst1 : fs_calls (trace (if is_sensitive_file (self st) abs
                                  then snd (generate_caep_event env abs "file_access"
                                              (record (FsCall Resolve p) st))
                                  else record (FsCall Resolve p) st)) =
                 (fs_calls (trace st) ++ [(Resolve, p)])%list).
  { destruct (is_sensitive_file (self st) abs);
      [rewrite generate_caep_event_exact|];
      unfold record; cbn [snd trace]; autorewrite with trace; cbn [fs_calls];
      now rewrite ?app_nil_r. }
  destruct (within_sandbox abs) eqn:Hin;
    [destruct (fs_exists env abs) as [[|]|e1] eqn:He;
     [destruct (fs_is_file env abs) as [[|]|e2] eqn:Hf;
      [destruct (fs_read_text env abs) as [content|e3]|..]|..]|];
    unfold record in *; cbn [snd trace self clock_reads post_attempts] in *;
    autorewrite with trace; cbn [fs_calls];
    rewrite ?app_nil_r, ?Hst1; intros H;
    repeat (apply in_app_or in H; destruct H as [H | H]);
    try (now left);
    repeat match type of H with
           | In _ (_ :: _) => destruct H as [H | H]
           | In _ [] => destruct H
           end;
    try discriminate;
    injection H as <-; right; auto.
Qed.


Lemma read_text_is_guarded_witness :
  let p := "/workspace/test-files/public-data.txt" in
  In (ReadText, p) (fs_calls (trace (snd (handle_file_read lab_env p (start init))))) /\
  fs_resolve lab_env p = Return p /\
  within_sandbox p = true /\
  fs_exists lab_env p = Return true /\
  fs_is_file lab_env p = Return true.
Proof.
  intros p.
  assert (Hin : In (ReadText, p)
                  (fs_calls (trace (snd (handle_file_read lab_env p (start init))))))
    by (vm_compute; auto 10).
  split; [exact Hin |].
  destruct (read_text_is_guarded lab_env p p (start init) Hin) as [[] | H].
  exact H.
Defined.

(** ** Listing, failures and queries *)

(** A listing returns one text. *)
Lemma handle_list_files_total (env : Env) (p : string) (st : State) :
  exists t st',
    handle_list_files env p st = (Return [{| type := "text"; text := t |}], st').
Proof.
  pose proof (list_answers env p st) as H.
  destruct (handle_list_files env p st) as [r st']. cbn [fst] in H.
  destruct H as [[abs ->] | [[abs [files ->]] | [e ->]]];
    unfold directory_not_found, text_content; eauto.
Qed.

(** X8: [handle_list_files] never raises: it returns one [TextContent],
    of type ["text"], whatever the file system does. *)
Theorem handle_list_files_returns (env : Env) (p : string) (st : State) :
  exists t st',
    handle_list_files env p st = (Return [{| type := "text"; text := t |}], st').
Proof. apply handle_list_files_total. Qed.

(** The loop stops at the first child whose directory test raises. *)
Lemma list_items_raises (env : Env) (srv : SecurityMCPServer) (abs name e : string)
    (before after files : list string) (st : State) :
  (forall n, In n before ->
     is_sensitive_file srv (path_join abs n) = true \/
     exists d, fs_is_dir env (path_join abs n) = Return d) ->
  is_sensitive_file srv (path_join abs name) = false ->
  fs_is_dir env (path_join abs name) = Raise e ->
  fst (list_items env srv abs (before ++ name :: after) files st) = Raise e.
Proof.
  revert files st. induction before as [|n before IH]; intros files st Hb Hs He.
  - cbn [app list_items]. run. now rewrite Hs, He.
  - cbn [app list_items]. run.
    destruct (Hb n (or_introl eq_refl)) as [-> | [d Hd]].
    + apply IH; auto. intros m Hm. apply Hb. now right.
    + destruct (is_sensitive_file srv (path_join abs n)); [|rewrite Hd];
        (apply IH; auto; intros m Hm; apply Hb; now right).
Qed.

(** X9: a listing is all or nothing.  When the enumeration of the
    directory raises, or the directory test of one child that is not
    sensitive raises, the answer is "Error listing directory" with the
    message of the exception, and the lines of the other children are
    dropped. *)
Theorem list_failure_drops_listing (env : Env) (p abs e : string) (st : State) :
  fs_resolve env p = Return abs ->
  fs_exists env abs = Return true ->
  fs_is_dir env abs = Return true ->
  (fs_iterdir env abs = Raise e \/
   exists before name after,
     fs_iterdir env abs = Return (before ++ name :: after)%list /\
     (forall n, In n before ->
        is_sensitive_file (self st) (path_join abs n) = true \/
        exists d, fs_is_dir env (path_join abs n) = Return d) /\
     is_sensitive_file (self st) (path_join abs name) = false /\
     fs_is_dir env (path_join abs name) = Raise e) ->
  fst (handle_list_files env p st) =
    Return (text_content ("❌ Error listing directory: " ++ e)).
Proof.
  intros Hres He Hd Hfail. unfold handle_list_files. run.
  rewrite Hres, He. cbn [negb]. rewrite Hd. cbn [negb].
  destruct Hfail as [-> | (before & name & after & -> & Hb & Hs & Hr)];
    [reflexivity |].
  match goal with
  | |- context [list_items ?en ?s ?a ?i ?f ?t] =>
      pose proof (list_items_raises en s a name e before after f t Hb Hs Hr) as Hl;
      destruct (list_items en s a i f t) as [[files|m] st2]
  end; cbn [fst] in *; [discriminate | congruence].
Qed.

Lemma list_failure_drops_listing_witness :
  fst (handle_list_files guarded_env "/workspace/test-files" (start init)) =
    Return (text_content
              ("❌ Error listing directory: " ++
               "[Errno 13] Permission denied: '/workspace/test-files/secure'")).
Proof.
  apply (list_failure_drops_listing guarded_env "/workspace/test-files"
           "/workspace/test-files" _ (start init) eq_refl eq_refl eq_refl).
  right.
  exists ["public-data.txt"; "api-keys.credentials"; "user-credentials.secret"],
         "secure", [].
  split; [reflexivity | split; [|split; reflexivity]].
  intros n [<- | [<- | [<- | []]]];
    [right; exists false; reflexivity | left; reflexivity | left; reflexivity].
Defined.

(** The queries of the loop. *)
Lemma list_items_queries (env : Env) (srv : SecurityMCPServer) (abs : string)
    (items files : list string) (st : State) :
  (forall name, In name items ->
     is_sensitive_file srv (path_join abs name) = false ->
     exists d, fs_is_dir env (path_join abs name) = Return d) ->
  fs_calls (trace (snd (list_items env srv abs items files st))) =
    (fs_calls (trace st) ++ child_queries srv abs items)%list.
Proof.
  unfold child_queries.
  revert files st. induction items as [|name rest IH]; intros files st Hd.
  - simpl. now rewrite app_nil_r.
  - cbn [list_items List.filter]. run.
    destruct (is_sensitive_file srv (path_join abs name)) eqn:Hs; cbn [negb].
    + apply IH. intros n Hn. apply Hd. now right.
    + destruct (Hd name (or_introl eq_refl) Hs) as [d ->].
      rewrite IH by (intros n Hn; apply Hd; now right).
      cbn [trace map]. rewrite fs_calls_app. cbn [fs_calls].
      now rewrite <- app_assoc.
Qed.

(** X10: the queries of a listing, in order: the resolution of the path,
    the existence and directory tests and the enumeration of the resolved
    path, then one directory test for each child that is not sensitive.
    The type of a sensitive child is never asked, and no content is
    read. *)
Theorem list_queries (env : Env) (p abs : string) (items : list string) (st : State) :
  fs_resolve env p = Return abs ->
  fs_exists env abs = Return true ->
  fs_is_dir env abs = Return true ->
  fs_iterdir env abs = Return items ->
  (forall name, In name items ->
     is_sensitive_file (self st) (path_join abs name) = false ->
     exists d, fs_is_dir env (path_join abs name) = Return d) ->
  fs_calls (trace (snd (handle_list_files env p st))) =
    (fs_calls (trace st) ++
     [(Resolve, p); (Exists, abs); (IsDir, abs); (Iterdir, abs)] ++
     child_queries (self st) abs items)%list.
Proof.
  intros Hres He Hd Hit Hch. unfold handle_list_files. run.
  rewrite Hres, He. cbn [negb]. rewrite Hd, Hit. cbn [negb].
  match goal with
  | |- context [list_items ?en ?s ?a ?i ?f ?t] =>
      pose proof (list_items_queries en s a i f t Hch) as Hq;
      destruct (list_items en s a i f t) as [[files|m] st2]
  end; cbn [snd trace] in *; rewrite Hq; autorewrite with trace;
    cbn [fs_calls]; rewrite ?app_nil_r; repeat rewrite <- app_assoc; reflexivity.
Qed.

Lemma list_queries_witness :
  fs_calls (trace (snd (handle_list_files lab_env "/workspace/test-files" (start init)))) =
    [(Resolve, "/workspace/test-files"); (Exists, "/workspace/test-files");
     (IsDir, "/workspace/test-files"); (Iterdir, "/workspace/test-files");
     (IsDir, "/workspace/test-files/public-data.txt");
     (IsDir, "/workspace/test-files/secure")].
Proof.
  refine (eq_trans
            (list_queries lab_env "/workspace/test-files" "/workspace/test-files"
               ["public-data.txt"; "api-keys.credentials";
                "user-credentials.secret"; "secure"]
               (start init) eq_refl eq_refl eq_refl eq_refl _) _).
  - intros name [<- | [<- | [<- | [<- | []]]]] _; eexists; reflexivity.
  - vm_compute. reflexivity.
Defined.


(** ** The tools and their dispatch *)

(** X11: a call of a tool that [handle_list_tools] announces, with the
    keys that its schema requires, never raises: it returns one
    [TextContent] of type ["text"]. *)
Theorem announced_tools_return (env : Env) (tool : Tool)
    (arguments : gmap string string) (st : State) :
  In tool handle_list_tools ->
  (forall k, In k (tool_required tool) -> is_Some (arguments !! k)) ->
  exists t st',
    handle_call_tool env (tool_name tool) arguments st =
      (Return [{| type := "text"; text := t |}], st').
Proof.
  intros [<- | [<- | []]] Hreq; unfold handle_call_tool; cbn.
  - destruct (Hreq "path" (or_introl eq_refl)) as [path ->].
    apply handle_file_read_total.
  - apply handle_list_files_total.
Qed.

Lemma announced_tools_return_witness :
  exists t st',
    handle_call_tool lab_env "list_files_secure" ∅ (start init) =
      (Return [{| type := "text"; text := t |}], st').
Proof.
  refine (announced_tools_return lab_env
            {| tool_name := "list_files_secure";
               tool_description := "List files in directory with security monitoring";
               tool_properties :=
                 [{| prop_name := "path"; prop_type := "string";
                     prop_description := "Directory path to list";
                     prop_default := Some "/workspace/test-files" |}];
               tool_required := [] |}
            ∅ (start init) _ _).
  - right. left. reflexivity.
  - intros k [].
Defined.

(** X12: a call of a name that [handle_list_tools] does not announce
    raises "Unknown tool" with the name, before any effect: the state is
    left as it was. *)
Theorem unknown_tool_raises (env : Env) (name : string)
    (arguments : gmap string string) (st : State) :
  (forall tool, In tool handle_list_tools -> tool_name tool <> name) ->
  handle_call_tool env name arguments st = (Raise ("Unknown tool: " ++ name), st).
Proof.
  intros Hnot. unfold handle_call_tool.
  destruct (String.eqb_spec name "read_file_secure") as [-> | _].
  - exfalso. eapply Hnot; [left; reflexivity | reflexivity].
  - destruct (String.eqb_spec name "list_files_secure") as [-> | _].
    + exfalso. eapply Hnot; [right; left; reflexivity | reflexivity].
    + reflexivity.
Qed.

Lemma unknown_tool_raises_witness :
  handle_call_tool lab_env "delete_file" ∅ (start init) =
    (Raise ("Unknown tool: " ++ "delete_file"), start init).
Proof.
  apply unknown_tool_raises.
  intros tool [<- | [<- | []]]; discriminate.
Defined.

(** X13: a call of an announced tool without a key that its schema
    requires raises the [KeyError] of that key, before any effect.  Only
    [read_file_secure] has such a key, [path]. *)
Theorem missing_required_key_raises (env : Env) (tool : Tool) (k : string)
    (arguments : gmap string string) (st : State) :
  In tool handle_list_tools ->
  In k (tool_required tool) ->
  arguments !! k = None ->
  handle_call_tool env (tool_name tool) arguments st =
    (Raise ("'" ++ k ++ "'"), st).
Proof.
  intros [<- | [<- | []]] Hk Hnone; cbn in Hk; [|destruct Hk].
  destruct Hk as [<- | []]. unfold handle_call_tool. cbn.
  now rewrite Hnone.
Qed.

Lemma missing_required_key_raises_witness :
  handle_call_tool lab_env "read_file_secure" ∅ (start init) =
    (Raise ("'" ++ "path" ++ "'"), start init).
Proof.
  refine (missing_required_key_raises lab_env
            {| tool_name := "read_file_secure";
               tool_description := "Read file contents with security monitoring";
               tool_properties :=
                 [{| prop_name := "path"; prop_type := "string";
                     prop_description := "Path to the file to read";
                     prop_default := None |}];
               tool_required := ["path"] |}
            "path" ∅ (start init) _ _ _).
  - left. reflexivity.
  - left. reflexivity.
  - reflexivity.
Defined.

(** X14: the default that a schema of [handle_list_tools] declares for a
    property is the one that [handle_call_tool] uses: a call without the
    key behaves as the call with the key set to the declared default.
    This is the [path] of [list_files_secure], ["/workspace/test-files"]. *)
Theorem declared_default_is_used (env : Env) (tool : Tool) (prop : ToolProperty)
    (d : string) (arguments : gmap string string) (st : State) :
  In tool handle_list_tools ->
  In prop (tool_properties tool) ->
  prop_default prop = Some d ->
  arguments !! prop_name prop = None ->
  handle_call_tool env (tool_name tool) arguments st =
  handle_call_tool env (tool_name tool) (<[prop_name prop := d]> arguments) st.
Proof.
  intros [<- | [<- | []]] Hp Hd Hnone; cbn in Hp; destruct Hp as [<- | []];
    cbn in Hd; [discriminate |].
  injection Hd as <-. cbn in Hnone. unfold handle_call_tool. cbn.
  now rewrite Hnone, lookup_insert_eq.
Qed.

Lemma declared_default_is_used_witness :
  handle_call_tool lab_env "list_files_secure" ∅ (start init) =
  handle_call_tool lab_env "list_files_secure"
    (<["path" := "/workspace/test-files"]> ∅) (start init).
Proof.
  refine (declared_default_is_used lab_env
            {| tool_name := "list_files_secure";
               tool_description := "List files in directory with security monitoring";
               tool_properties :=
                 [{| prop_name := "path"; prop_type := "string";
                     prop_description := "Directory path to list";
                     prop_default := Some "/workspace/test-files" |}];
               tool_required := [] |}
            {| prop_name := "path"; prop_type := "string";
               prop_description := "Directory path to list";
               prop_default := Some "/workspace/test-files" |}
            "/workspace/test-files" ∅ (start init) _ _ _ _).
  - right. left. reflexivity.
  - left. reflexivity.
  - reflexivity.
  - reflexivity.
Defined.

(** ** The classifier, case by case *)









(** X17: an empty pattern among the monitored ones makes every path
    sensitive, the empty string being in every string. *)
Theorem empty_pattern_matches_all (srv : SecurityMCPServer) (filepath : string) :
  In "" (monitored_patterns srv) -> is_sensitive_file srv filepath = true.
Proof.
  intros Hin. apply is_sensitive_file_iff. exists "". split; [exact Hin |].
  exists "", (lower filepath). reflexivity.
Qed.

Lemma empty_pattern_matches_all_witness :
  is_sensitive_file
    {| ssf_receiver_url := "http://localhost:8082/events";
       monitored_patterns := [".secret"; ""];
       event_count := 0 |}
    "/workspace/test-files/public-data.txt" = true.
Proof.
  apply empty_pattern_matches_all. right. left. reflexivity.
Defined.

(** ** The books of a run *)





(** X19: no tool call changes the configuration: at every point of a run
    the monitored patterns and the URL of the receiver are the ones the
    run started with, so the patterns of [__init__] stay in lower case. *)
Theorem run_keeps_configuration (env : Env)
    (calls : list (string * gmap string string)) (st : State) :
  monitored_patterns (self (serve env calls st)) = monitored_patterns (self st) /\
  ssf_receiver_url (self (serve env calls st)) = ssf_receiver_url (self st) /\
  (lower_case (monitored_patterns (self st)) ->
   lower_case (monitored_patterns (self (serve env calls st)))).
Proof.
  assert (H : monitored_patterns (self (serve env calls st)) =
              monitored_patterns (self st) /\
              ssf_receiver_url (self (serve env calls st)) = ssf_receiver_url (self st)).
  { revert st. induction calls as [|[name arguments] rest IH]; intros st; [auto |].
    cbn [serve].
    destruct (IH (snd (handle_call_tool env name arguments st))) as [-> ->].
    destruct (handle_call_tool_step env name arguments st)
      as [[-> _] | [abs [-> _]]]; auto. }
  destruct H as [Hp Hu]. rewrite Hp, Hu. auto.
Qed.

Lemma run_keeps_configuration_witness :
  lower_case
    (monitored_patterns
       (self (serve lab_env
                [("read_file_secure",
                  {["path" := "/workspace/test-files/user-credentials.secret"]})]
                (start init)))).
Proof.
  apply (run_keeps_configuration lab_env
           [("read_file_secure",
             {["path" := "/workspace/test-files/user-credentials.secret"]})]
           (start init)).
  unfold lower_case. simpl. repeat constructor.
Defined.


(** ** The test client *)

Lemma print_all_prints (result : list TextContent) (st : State) :
  TestClient.print_all result st =
    (Return tt,
     {| self := self st;
        trace := trace st ++ map (fun c => Printed (text c)) result;
        clock_reads := clock_reads st;
        post_attempts := post_attempts st |}).
Proof.
  revert st. induction result as [|c rest IH]; intros st.
  - cbn. rewrite app_nil_r. now destruct st.
  - cbn [TestClient.print_all map]. run. rewrite IH.
    cbn [self trace clock_reads post_attempts]. now rewrite <- app_assoc.
Qed.

(** A test of a read, in terms of the read. *)
Lemma test_file_access_runs (env : Env) (filepath : string) (st : State) :
  exists t st1,
    handle_file_read env filepath
      (prepared [String "010" "" ++ "🧪 Testing file access: " ++ filepath;
                 TestClient.separator] st) =
      (Return (text_content t), st1) /\
    TestClient.test_file_access env filepath st = (Return tt, record (Printed t) st1).
Proof.
  destruct (handle_file_read_total env filepath
              (prepared [String "010" "" ++ "🧪 Testing file access: " ++ filepath;
                         TestClient.separator] st)) as (t & st1 & Hr).
  exists t, st1. split; [exact Hr |].
  unfold TestClient.test_file_access, TestClient.new_server. run.
  unfold prepared in Hr. cbn [map] in Hr.
  rewrite <- app_assoc. cbn [app]. rewrite Hr.
  rewrite print_all_prints. cbn [map text]. reflexivity.
Qed.


(** The events of one test carry the counter 1. *)
Lemma test_file_access_posts (env : Env) (filepath : string) (st : State) :
  exists new,
    posts (trace (snd (TestClient.test_file_access env filepath st))) =
      (posts (trace st) ++ new)%list /\
    forall ev, In ev new -> exists t, event_id ev = Some (jti_of t 1).
Proof.
  destruct (test_file_access_runs env filepath st) as (t & st1 & Hr & ->).
  pose proof (handle_file_read_step env filepath
                (prepared [String "010" "" ++ "🧪 Testing file access: " ++ filepath;
                           TestClient.separator] st)) as Hstep.
  rewrite Hr in Hstep. cbn [snd] in *. unfold record. cbn [trace].
  rewrite posts_app. cbn [posts]. rewrite app_nil_r.
  assert (Hprep : forall header, posts (trace (prepared header st)) = posts (trace st)).
  { intros header. unfold prepared. cbn [trace]. rewrite posts_app.
    induction header; cbn; [now rewrite app_nil_r | exact IHheader]. }
  destruct Hstep as [[_ Hp] | [abs [_ Hp]]]; rewrite Hp, Hprep.
  - exists []. rewrite app_nil_r. split; [reflexivity | intros ev []].
  - eexists. split; [reflexivity |].
    intros ev [<- | []]. rewrite event_at_id. eexists. reflexivity.
Qed.

Lemma test_directory_listing_posts (env : Env) (dirpath : string) (st : State) :
  posts (trace (snd (TestClient.test_directory_listing env dirpath st))) =
    posts (trace st).
Proof.
  unfold TestClient.test_directory_listing, TestClient.new_server. run.
  match goal with
  | |- context [handle_list_files env dirpath ?s] =>
      destruct (handle_list_files_total env dirpath s) as (t & st1 & Hr);
      destruct (handle_list_files_frame env dirpath s) as (_ & Hp & _);
      rewrite Hr in *
  end.
  rewrite print_all_prints. cbn [snd trace map text] in *.
  autorewrite with trace in *. cbn [posts] in *. now rewrite ?app_nil_r in *.
Qed.

Lemma test_each_posts (env : Env) (files : list string) (st : State) :
  exists new,
    posts (trace (snd (TestClient.test_each env files st))) =
      (posts (trace st) ++ new)%list /\
    forall ev, In ev new -> exists t, event_id ev = Some (jti_of t 1).
Proof.
  revert st. induction files as [|f rest IH]; intros st.
  - exists []. cbn. rewrite app_nil_r. split; [reflexivity | intros ev []].
  - cbn [TestClient.test_each]. unfold bind.
    destruct (test_file_access_posts env f st) as (new1 & H1 & Hid1).
    destruct (test_file_access_runs env f st) as (t & st1 & _ & Hrun).
    rewrite Hrun in *. cbn [snd] in H1.
    destruct (IH (record (Printed t) st1)) as (new2 & H2 & Hid2).
    exists (new1 ++ new2)%list. rewrite H2, H1, <- app_assoc.
    split; [reflexivity |].
    intros ev Hin. apply in_app_or in Hin. destruct Hin; auto.
Qed.

(** X21: in a run of the test client every posted event has the counter
    1 in its id, each test building its own server; the events of two
    tests that read the clock in the same second have the same id, as the
    two sensitive files of the default run do in the lab. *)
Theorem test_client_ids (env : Env) (args : list string) (st : State) :
  (exists new,
     posts (trace (snd (TestClient.main env args st))) = (posts (trace st) ++ new)%list /\
     forall ev, In ev new -> exists t, event_id ev = Some (jti_of t 1)) /\
  event_ids (trace (snd (TestClient.main lab_env [] (start init)))) =
    [Some (jti_of 1700000000 1); Some (jti_of 1700000000 1)].
Proof.
  split; [|vm_compute; reflexivity].
  unfold TestClient.main. run.
  set (files := match args with [] => _ | _ :: _ => args end).
  match goal with
  | |- context [TestClient.test_directory_listing env ?d ?s] =>
      pose proof (test_directory_listing_posts env d s) as Hl;
      destruct (TestClient.test_directory_listing env d s) as [[[]|e] st1]
  end; cbn [snd trace] in Hl; autorewrite with trace in Hl; cbn [posts] in Hl;
    rewrite ?app_nil_r in Hl.
  - destruct (test_each_posts env files st1) as (new & Hn & Hid).
    destruct (TestClient.test_each env files st1) as [[[]|e] st2];
      cbn [snd trace] in *; exists new;
      (split; [|exact Hid]);
      autorewrite with trace; cbn [posts]; rewrite ?app_nil_r; now rewrite Hn, Hl.
  - exists []. cbn [snd]. rewrite Hl, app_nil_r.
    split; [reflexivity | intros ev []].
Qed.

(** ** Answers and earlier calls *)

(** The answer of a read depends on the state through the monitored
    patterns only. *)
Lemma handle_file_read_answer (env : Env) (p : string) (st1 st2 : State) :
  monitored_patterns (self st1) = monitored_patterns (self st2) ->
  fst (handle_file_read env p st1) = fst (handle_file_read env p st2).
Proof.
  intros Hpat. rewrite !handle_file_read_branches. cbv zeta.
  assert (Hs : forall abs, is_sensitive_file (self st1) abs =
                           is_sensitive_file (self st2) abs)
    by (intros abs; unfold is_sensitive_file; now rewrite Hpat).
  destruct (fs_resolve env p) as [abs|e0]; [|reflexivity].
  rewrite Hs.
  destruct (within_sandbox abs); [|reflexivity].
  destruct (fs_exists env abs) as [[|]|e1]; try reflexivity.
  destruct (fs_is_file env abs) as [[|]|e2]; try reflexivity.
  destruct (fs_read_text env abs) as [content|e3]; reflexivity.
Qed.

(** X22: the answer of a read does not depend on the calls handled
    before it: after any sequence of tool calls the server answers a read
    as it would have answered it at the start, the event counter and the
    trace playing no part in the answer. *)
Theorem read_answer_after_run (env : Env) (calls : list (string * gmap string string))
    (p : string) (st : State) :
  fst (handle_file_read env p (serve env calls st)) = fst (handle_file_read env p st).
Proof.
  apply handle_file_read_answer.
  revert st. induction calls as [|[name arguments] rest IH]; intros st; [reflexivity |].
  cbn [serve]. rewrite IH.
  destruct (handle_call_tool_step env name arguments st)
    as [[-> _] | [abs [-> _]]]; reflexivity.
Qed.
